(** * etc/jupyterhub_config_comanage.py

    The configuration file is a Python module whose body is a straight line
    of statements: four item assignments on [os.environ], two [from ... import]
    statements, and fourteen attribute assignments on the configuration object
    that the loader binds to the name [c] before it executes the body.

    The body is embedded as a computation in a state-and-exception monad.
    The state holds the process environment, the configuration object, the
    module namespace and the sequence of assignments executed so far.  An
    exception leaves the state as it was when it was raised, as in Python. *)

From Stdlib Require Import String Ascii List ZArith Bool.
From stdpp Require Import base option list gmap strings fin_maps.
Import ListNotations.
Local Open Scope string_scope.
Local Open Scope Z_scope.
Local Open Scope list_scope.
Set Warnings "-register-all".

(** ** Values *)

(** The Python objects that the file handles: [str], [int] and [bool]
    literals, a list display, a set display of strings, and the objects
    that an import binds (classes and modules). *)
Inductive value : Type :=
  | VStr (s : string)
  | VInt (n : Z)
  | VBool (b : bool)
  | VList (items : list value)
  | VSet (members : gset string)
  | VClass (module qualname : string)
  | VModule (name : string).

(** The exceptions that the body can raise.  [ModuleNotFoundError] is a
    subclass of [ImportError]. *)
Inductive exn : Type :=
  | ModuleNotFoundError (name : string)
  | ImportError (module name : string)
  | NameError (name : string).

Definition is_ImportError (e : exn) : bool :=
  match e with
  | ModuleNotFoundError _ | ImportError _ _ => true
  | NameError _ => false
  end.

(** ** State *)

(** What an assignment statement of the file writes to: an item of
    [os.environ], or an attribute [c.<section>.<key>]. *)
Inductive target : Type :=
  | EnvVar (name : string)
  | Attr (section key : string).

#[global] Instance target_eq_dec : EqDecision target.
Proof. solve_decision. Defined.

Record assignment : Type := Assign { lhs : target; rhs : value }.

(** A [Config] object is a dictionary of sections, each a dictionary of
    keys. *)
Abbreviation Config := (gmap string (gmap string value)).

Record state : Type := State {
  environ : gmap string string;
  c : Config;
  globals : gmap string value;
  assigned : list assignment
}.

(** The namespace the loader executes the file in: only [c] is bound, no
    assignment has run. *)
Definition start (env0 : gmap string string) (c0 : Config) : state :=
  State env0 c0 ∅ [].

(** ** The monad *)

Inductive outcome (A : Type) : Type :=
  | Returned (a : A)
  | Raised (e : exn).
Arguments Returned {A} a.
Arguments Raised {A} e.

Definition Py (A : Type) : Type := state → outcome A * state.

#[global] Instance Py_ret : MRet Py := λ A a st, (Returned a, st).

#[global] Instance Py_bind : MBind Py := λ A B k m st,
  match m st with
  | (Returned a, st') => k a st'
  | (Raised e, st') => (Raised e, st')
  end.

Definition raise {A : Type} (e : exn) : Py A := λ st, (Raised e, st).

(** ** Statements *)

(** Reading [c.<section>.<key>]. *)
Definition getattr (cfg : Config) (section key : string) : option value :=
  cfg !! section ≫= λ sec, sec !! key.

(** Writing [c.<section>.<key> = v]: attribute access on a [Config] creates
    the section when it is not there yet. *)
Definition setattr (cfg : Config) (section key : string) (v : value) : Config :=
  <[section := <[key := v]> (default ∅ (cfg !! section))]> cfg.

(** A statement that only updates the state. *)
Definition modify (f : state → state) : Py unit := λ st, (Returned (), f st).

(** [name = v] in the module namespace. *)
Definition store_name (name : string) (v : value) : Py unit :=
  modify (λ st,
    State (environ st) (c st) (<[name := v]> (globals st)) (assigned st)).

(** Evaluating a bare name. *)
Definition load_name (name : string) : Py value := λ st,
  match globals st !! name with
  | Some v => (Returned v, st)
  | None => (Raised (NameError name), st)
  end.

(** [os.environ[key] = val]. *)
Definition environ_setitem (key val : string) : Py unit :=
  load_name "os";;
  modify (λ st,
    State (<[key := val]> (environ st)) (c st) (globals st)
          (assigned st ++ [Assign (EnvVar key) (VStr val)])).

(** [c.<section>.<key> = v]. *)
Definition c_setattr (section key : string) (v : value) : Py unit :=
  modify (λ st,
    State (environ st) (setattr (c st) section key v) (globals st)
          (assigned st ++ [Assign (Attr section key) v])).

(** [import os]: the standard library module is always there. *)
Definition import_os : Py unit := store_name "os" (VModule "os").

Section Body.

(** The modules that the import system can find, each with the names it
    defines. *)
Variable sys_modules : gmap string (gmap string value).

(** The names of a [from] import are fetched and bound one after the
    other. *)
Fixpoint import_from (module : string) (ns : gmap string value)
    (names : list string) : Py unit :=
  match names with
  | [] => mret ()
  | n :: rest =>
      match ns !! n with
      | Some v => store_name n v;; import_from module ns rest
      | None => raise (ImportError module n)
      end
  end.

(** [from module import names]. *)
Definition from_import (module : string) (names : list string) : Py unit :=
  match sys_modules !! module with
  | Some ns => import_from module ns names
  | None => raise (ModuleNotFoundError module)
  end.

(** The body of the file, statement by statement. *)
Definition jupyterhub_config_comanage : Py unit :=
  import_os;;
  environ_setitem "CILOGON_HOST" "cilogon.org";;
  environ_setitem "CILOGON_CLIENT_ID"
    "cilogon:/client_id/5ea8818a26318a9dc03d8a1f82bef34a";;
  environ_setitem "CILOGON_CLIENT_SECRET"
    "XXXXXXXXXXXXXXXXXXXXXXXXXXXXXXXXXXXXXXXXXXXXXXXXXXXXXXXXXXXXXXXXXXXXXXXXXXXx";;
  environ_setitem "JUPYTERHUB_CRYPT_KEY"
    "XXXXXXXXXXXXXXXXXXXXXXXXXXXXXXXXXXXXXXXXXXXXXXXXXXXXXXXXXXXXxxxx";;
  from_import "oauthenticator.comanage"
    ["COManageOAuthenticator"; "LocalCOManageOAuthenticator"];;
  from_import "jupyterhub.comanage" ["NormalizedSpawner"];;
  cls ← load_name "LocalCOManageOAuthenticator";
  c_setattr "JupyterHub" "authenticator_class" cls;;
  c_setattr "COManageOAuthenticator" "oauth_callback_url"
    (VStr "https://jupyter05.sdcc.bnl.gov:8000/hub/oauth_callback");;
  c_setattr "COManageOAuthenticator" "idp_whitelist"
    (VList [VStr "bnl.gov"; VStr "anl.gov"; VStr "ornl.gov"; VStr "lbl.gov"]);;
  c_setattr "COManageOAuthenticator" "comanage_group_whitelist"
    (VList [VStr "CO:members:active"; VStr "bnl"]);;
  c_setattr "JupyterHub" "cookie_secret_file"
    (VStr "/usr/local/anaconda3/etc/jupyterhub/jupyterhub_cookie_secret");;
  c_setattr "ConfigurableHTTPProxy" "debug" (VBool true);;
  c_setattr "JupyterHub" "log_level" (VInt 10);;
  c_setattr "JupyterHub" "spawner_class"
    (VStr "jupyterhub.spawner.LocalProcessSpawner");;
  c_setattr "JupyterHub" "ssl_cert"
    (VStr "/usr/local/anaconda3/etc/jupyterhub/ssl/certificate.crt");;
  c_setattr "JupyterHub" "ssl_key"
    (VStr "/usr/local/anaconda3/etc/jupyterhub/ssl/key.pem");;
  c_setattr "Spawner" "debug" (VBool true);;
  c_setattr "Authenticator" "admin_users" (VSet {["jhover@bnl.gov"]});;
  c_setattr "Authenticator" "enable_auth_state" (VBool true);;
  c_setattr "LocalAuthenticator" "create_system_users" (VBool true).

(** Loading the file into the configuration object [c0], in a process
    whose environment is [env0]. *)
Definition load (env0 : gmap string string) (c0 : Config) : outcome unit * state :=
  jupyterhub_config_comanage (start env0 c0).

(** [module] can be imported and defines every one of [names]. *)
Definition exports (module : string) (names : list string) : bool :=
  match sys_modules !! module with
  | Some ns => forallb (λ n, bool_decide (is_Some (ns !! n))) names
  | None => false
  end.

(** Both [from] imports of the file can be carried out. *)
Definition importable : bool :=
  exports "oauthenticator.comanage"
    ["COManageOAuthenticator"; "LocalCOManageOAuthenticator"]
  && exports "jupyterhub.comanage" ["NormalizedSpawner"].

End Body.

(** An installation in which both plugin modules are present. *)
Definition installed : gmap string (gmap string value) :=
  {[ "oauthenticator.comanage" :=
       {[ "COManageOAuthenticator" :=
            VClass "oauthenticator.comanage" "COManageOAuthenticator";
          "LocalCOManageOAuthenticator" :=
            VClass "oauthenticator.comanage" "LocalCOManageOAuthenticator" ]};
     "jupyterhub.comanage" :=
       {[ "NormalizedSpawner" := VClass "jupyterhub.comanage" "NormalizedSpawner" ]} ]}.

(** ** Reading the state back *)

(** The value a reader of the target finds in a state: the environment
    holds strings, the configuration object holds values. *)
Definition read (st : state) (t : target) : option value :=
  match t with
  | EnvVar name => VStr <$> environ st !! name
  | Attr section key => getattr (c st) section key
  end.

(** The value that a sequence of assignments leaves in a target that held
    [init] before: the last one assigned to it. *)
Definition last_assigned (t : target) (log : list assignment)
    (init : option value) : option value :=
  foldl (λ acc a, if decide (lhs a = t) then Some (rhs a) else acc) init log.

(** The assignments of the file in program order: first those to the
    environment, then those to the configuration object, [cls] being the
    object bound to the name [LocalCOManageOAuthenticator]. *)
Definition environ_assignments : list assignment :=
  [ Assign (EnvVar "CILOGON_HOST") (VStr "cilogon.org");
    Assign (EnvVar "CILOGON_CLIENT_ID")
      (VStr "cilogon:/client_id/5ea8818a26318a9dc03d8a1f82bef34a");
    Assign (EnvVar "CILOGON_CLIENT_SECRET")
      (VStr "XXXXXXXXXXXXXXXXXXXXXXXXXXXXXXXXXXXXXXXXXXXXXXXXXXXXXXXXXXXXXXXXXXXXXXXXXXXx");
    Assign (EnvVar "JUPYTERHUB_CRYPT_KEY")
      (VStr "XXXXXXXXXXXXXXXXXXXXXXXXXXXXXXXXXXXXXXXXXXXXXXXXXXXXXXXXXXXXxxxx") ].

Definition c_assignments (cls : value) : list assignment :=
  [ Assign (Attr "JupyterHub" "authenticator_class") cls;
    Assign (Attr "COManageOAuthenticator" "oauth_callback_url")
      (VStr "https://jupyter05.sdcc.bnl.gov:8000/hub/oauth_callback");
    Assign (Attr "COManageOAuthenticator" "idp_whitelist")
      (VList [VStr "bnl.gov"; VStr "anl.gov"; VStr "ornl.gov"; VStr "lbl.gov"]);
    Assign (Attr "COManageOAuthenticator" "comanage_group_whitelist")
      (VList [VStr "CO:members:active"; VStr "bnl"]);
    Assign (Attr "JupyterHub" "cookie_secret_file")
      (VStr "/usr/local/anaconda3/etc/jupyterhub/jupyterhub_cookie_secret");
    Assign (Attr "ConfigurableHTTPProxy" "debug") (VBool true);
    Assign (Attr "JupyterHub" "log_level") (VInt 10);
    Assign (Attr "JupyterHub" "spawner_class")
      (VStr "jupyterhub.spawner.LocalProcessSpawner");
    Assign (Attr "JupyterHub" "ssl_cert")
      (VStr "/usr/local/anaconda3/etc/jupyterhub/ssl/certificate.crt");
    Assign (Attr "JupyterHub" "ssl_key")
      (VStr "/usr/local/anaconda3/etc/jupyterhub/ssl/key.pem");
    Assign (Attr "Spawner" "debug") (VBool true);
    Assign (Attr "Authenticator" "admin_users") (VSet {["jhover@bnl.gov"]});
    Assign (Attr "Authenticator" "enable_auth_state") (VBool true);
    Assign (Attr "LocalAuthenticator" "create_system_users") (VBool true) ].

(** The object that the first [from] import binds to the name the file
    assigns to [authenticator_class]. *)
Definition imported_authenticator (sys_modules : gmap string (gmap string value))
    : option value :=
  sys_modules !! "oauthenticator.comanage"
  ≫= λ ns, ns !! "LocalCOManageOAuthenticator".

(** ** The invariant of a load *)

(** Every target holds what the log says was assigned to it last, or what
    it held at the start, in the environment [env0] and the configuration
    object [c0], when the log does not mention it. *)
Definition coherent (env0 : gmap string string) (c0 : Config) (st : state) : Prop :=
  ∀ t, read st t = last_assigned t (assigned st) (read (start env0 c0) t).

(** A statement keeps the invariant, whether it returns or raises. *)
Definition preserves (env0 : gmap string string) (c0 : Config) {A : Type}
    (m : Py A) : Prop :=
  ∀ st, coherent env0 c0 st → coherent env0 c0 (snd (m st)).

(** ** The specification's side *)

(** The option table of the specification, row by row, each row with the
    target or targets it documents. *)
Definition option_table : list (string * list target) :=
  [ ("identity-provider host/client-id/client-secret (environment variables)",
     [EnvVar "CILOGON_HOST"; EnvVar "CILOGON_CLIENT_ID";
      EnvVar "CILOGON_CLIENT_SECRET"]);
    ("session-signing key (environment variable)",
     [EnvVar "JUPYTERHUB_CRYPT_KEY"]);
    ("authenticator class selection",
     [Attr "JupyterHub" "authenticator_class"]);
    ("OAuth callback URL",
     [Attr "COManageOAuthenticator" "oauth_callback_url"]);
    ("identity-provider domain whitelist",
     [Attr "COManageOAuthenticator" "idp_whitelist"]);
    ("group-membership whitelist",
     [Attr "COManageOAuthenticator" "comanage_group_whitelist"]);
    ("cookie-secret file path", [Attr "JupyterHub" "cookie_secret_file"]);
    ("proxy debug flag", [Attr "ConfigurableHTTPProxy" "debug"]);
    ("log verbosity level", [Attr "JupyterHub" "log_level"]);
    ("spawner class selection", [Attr "JupyterHub" "spawner_class"]);
    ("TLS certificate/key file paths",
     [Attr "JupyterHub" "ssl_cert"; Attr "JupyterHub" "ssl_key"]);
    ("administrative-user set", [Attr "Authenticator" "admin_users"]);
    ("enable-auth-state flag", [Attr "Authenticator" "enable_auth_state"]);
    ("auto-create-local-account flag",
     [Attr "LocalAuthenticator" "create_system_users"]) ].

Definition documented : list target := concat (map snd option_table).

(** The kinds of value the specification's data model names. *)
Definition simple_scalar (v : value) : bool :=
  match v with
  | VStr _ | VInt _ | VBool _ => true
  | _ => false
  end.

Definition set_of_strings (v : value) : bool :=
  match v with
  | VSet _ => true
  | _ => false
  end.

Definition file_path_string (v : value) : bool :=
  match v with
  | VStr s => String.prefix "/" s
  | _ => false
  end.

Definition list_of_strings (v : value) : bool :=
  match v with
  | VList items =>
      forallb (λ x, match x with VStr _ => true | _ => false end) items
  | _ => false
  end.

(** The number of assignments of a log that write to a target. *)
Definition assignments_to (t : target) (log : list assignment) : nat :=
  length (filter (λ a, lhs a = t) log).

(** [oauthenticator.comanage] alone: the second import has nothing to find. *)
Definition without_jupyterhub_comanage : gmap string (gmap string value) :=
  delete "jupyterhub.comanage" installed.

(** A string made of the characters X and x only. *)
Definition redacted (s : string) : bool :=
  forallb (λ ch, Ascii.eqb ch "X" || Ascii.eqb ch "x") (list_ascii_of_string s).

(** ** Replaying a log *)

(** The environment and the configuration object that the assignments of a
    log produce, one after the other, from given ones. *)
Definition replay_environ (env : gmap string string) (log : list assignment)
    : gmap string string :=
  foldl (λ env a, match lhs a, rhs a with
                  | EnvVar name, VStr val => <[name := val]> env
                  | _, _ => env
                  end) env log.

Definition replay_c (cfg : Config) (log : list assignment) : Config :=
  foldl (λ cfg a, match lhs a with
                  | Attr section key => setattr cfg section key (rhs a)
                  | EnvVar _ => cfg
                  end) cfg log.

(** The state is what replaying its log from [env0] and [c0] gives. *)
Definition replayed (env0 : gmap string string) (c0 : Config) (st : state) : Prop :=
  environ st = replay_environ env0 (assigned st)
  ∧ c st = replay_c c0 (assigned st).

(** A statement keeps an invariant of the state, whether it returns or
    raises. *)
Definition keeps (I : state → Prop) {A : Type} (m : Py A) : Prop :=
  ∀ st, I st → I (snd (m st)).

(** The sections of the configuration object that the file writes to. *)
Definition sections : gset string :=
  {[ "JupyterHub"; "COManageOAuthenticator"; "ConfigurableHTTPProxy";
     "Spawner"; "Authenticator"; "LocalAuthenticator" ]}.

(** The installation with one module, or one name of a module, taken out. *)
Definition without_module (module : string) : gmap string (gmap string value) :=
  delete module installed.


(** The names that [oauthenticator.comanage] defines in [installed]. *)
Definition installed_oauthenticator : gmap string value :=
  {[ "COManageOAuthenticator" :=
       VClass "oauthenticator.comanage" "COManageOAuthenticator";
     "LocalCOManageOAuthenticator" :=
       VClass "oauthenticator.comanage" "LocalCOManageOAuthenticator" ]}.

(** * Tactics *)

(** Unfold a load and replace the lookups the context knows. *)
Ltac run := unfold load, jupyterhub_config_comanage, from_import;
            repeat match goal with
                   | H : _ !! _ = _ |- _ => rewrite H; clear H
                   end.

(** Membership of a literal in a literal list. *)
Ltac in_log :=
  repeat first [apply list_elem_of_here | apply list_elem_of_further].

(** * The assignment log determines the state *)

Lemma getattr_setattr (cfg : Config) (s k s' k' : string) (v : value) :
  getattr (setattr cfg s k v) s' k'
  = if decide (Attr s k = Attr s' k') then Some v else getattr cfg s' k'.
Proof.
  unfold getattr, setattr.
  destruct (decide (s = s')) as [<-|Hs].
  - rewrite lookup_insert_eq. cbn.
    destruct (decide (k = k')) as [<-|Hk].
    + rewrite lookup_insert_eq. by rewrite decide_True.
    + rewrite lookup_insert_ne by done.
      rewrite decide_False by congruence.
      destruct (cfg !! s); [done | apply lookup_empty].
  - rewrite lookup_insert_ne by done.
    by rewrite decide_False by congruence.
Qed.

Lemma last_assigned_snoc (t : target) (log : list assignment) (a : assignment)
    (init : option value) :
  last_assigned t (log ++ [a]) init
  = if decide (lhs a = t) then Some (rhs a) else last_assigned t log init.
Proof. unfold last_assigned. by rewrite foldl_app. Qed.

Lemma last_assigned_other (t : target) (log : list assignment)
    (init : option value) :
  t ∉ map lhs log → last_assigned t log init = init.
Proof.
  induction log as [|a log IH] using rev_ind; [done|].
  rewrite map_app, last_assigned_snoc. cbn. intros Hnot.
  rewrite decide_False
    by (intros <-; apply Hnot, elem_of_app; right;
        apply list_elem_of_singleton; done).
  apply IH. intros Hin. apply Hnot, elem_of_app. by left.
Qed.

Lemma last_assigned_once (a : assignment) (log : list assignment)
    (init : option value) :
  NoDup (map lhs log) → a ∈ log → last_assigned (lhs a) log init = Some (rhs a).
Proof.
  induction log as [|b log IH] using rev_ind; [by intros _ ?%elem_of_nil|].
  rewrite map_app, last_assigned_snoc. cbn.
  intros [Hlog [Hb _]]%NoDup_app Hin.
  destruct (decide (lhs b = lhs a)) as [Heq|Hne].
  - apply elem_of_app in Hin as [Hin| ->%list_elem_of_singleton]; [|done].
    exfalso. apply (Hb (lhs a)); [|rewrite Heq; apply list_elem_of_singleton; done].
    apply list_elem_of_fmap. by exists a.
  - apply elem_of_app in Hin as [Hin| ->%list_elem_of_singleton]; [|done].
    by apply IH.
Qed.

Section Coherence.

Variable env0 : gmap string string.
Variable c0 : Config.

Lemma coherent_start : coherent env0 c0 (start env0 c0).
Proof. by intros t. Qed.

Lemma preserves_ret {A : Type} (a : A) : preserves env0 c0 (mret a).
Proof. by intros st. Qed.

Lemma preserves_raise {A : Type} (e : exn) : preserves env0 c0 (@raise A e).
Proof. by intros st. Qed.

Lemma preserves_bind {A B : Type} (m : Py A) (k : A → Py B) :
  preserves env0 c0 m → (∀ a, preserves env0 c0 (k a)) →
  preserves env0 c0 (m ≫= k).
Proof.
  intros Hm Hk st Hst. specialize (Hm st Hst).
  unfold mbind, Py_bind. destruct (m st) as [[a|e] st']; [|done].
  by apply Hk.
Qed.

Lemma preserves_store_name (name : string) (v : value) :
  preserves env0 c0 (store_name name v).
Proof. intros st Hst t. specialize (Hst t). by destruct t. Qed.

Lemma preserves_load_name (name : string) : preserves env0 c0 (load_name name).
Proof. intros st Hst. unfold load_name. by destruct (globals st !! name). Qed.

Lemma preserves_environ_setitem (key val : string) :
  preserves env0 c0 (environ_setitem key val).
Proof.
  apply preserves_bind; [apply preserves_load_name|].
  intros _ st Hst t. specialize (Hst t). unfold modify. cbn [snd assigned].
  rewrite last_assigned_snoc. cbn.
  destruct t as [name|section k]; cbn in *.
  - destruct (decide (key = name)) as [<-|Hne].
    + rewrite lookup_insert_eq. by rewrite decide_True.
    + rewrite lookup_insert_ne by done.
      by rewrite decide_False by congruence.
  - by rewrite decide_False by done.
Qed.

Lemma preserves_c_setattr (section key : string) (v : value) :
  preserves env0 c0 (c_setattr section key v).
Proof.
  intros st Hst t. specialize (Hst t). unfold c_setattr, modify.
  cbn [snd assigned]. rewrite last_assigned_snoc. cbn.
  destruct t as [name|s k]; cbn in *.
  - by rewrite decide_False by done.
  - rewrite getattr_setattr. by destruct (decide _).
Qed.

Lemma preserves_import_from (module : string) (ns : gmap string value)
    (names : list string) :
  preserves env0 c0 (import_from module ns names).
Proof.
  induction names as [|n names IH]; cbn; [apply preserves_ret|].
  destruct (ns !! n); [|apply preserves_raise].
  apply preserves_bind; [apply preserves_store_name | done].
Qed.

Lemma preserves_from_import (sys_modules : gmap string (gmap string value))
    (module : string) (names : list string) :
  preserves env0 c0 (from_import sys_modules module names).
Proof.
  unfold from_import.
  destruct (sys_modules !! module);
    [apply preserves_import_from | apply preserves_raise].
Qed.

Lemma load_coherent (sys_modules : gmap string (gmap string value)) :
  coherent env0 c0 (snd (load sys_modules env0 c0)).
Proof.
  enough (preserves env0 c0 (jupyterhub_config_comanage sys_modules)) as Hbody
    by apply Hbody, coherent_start.
  unfold jupyterhub_config_comanage, import_os.
  repeat lazymatch goal with
    | |- preserves env0 c0 (store_name _ _) => apply preserves_store_name
    | |- preserves env0 c0 (load_name _) => apply preserves_load_name
    | |- preserves env0 c0 (environ_setitem _ _) => apply preserves_environ_setitem
    | |- preserves env0 c0 (c_setattr _ _ _) => apply preserves_c_setattr
    | |- preserves env0 c0 (from_import _ _ _) => apply preserves_from_import
    | |- preserves env0 c0 (_ ≫= _) => apply preserves_bind; [|intros ?]
    end.
Qed.

End Coherence.

(** * Running the file *)

Section Run.

Variable sys_modules : gmap string (gmap string value).
Variable env0 : gmap string string.
Variable c0 : Config.

Lemma load_importable :
  importable sys_modules = true →
  ∃ cls, imported_authenticator sys_modules = Some cls
         ∧ fst (load sys_modules env0 c0) = Returned ()
         ∧ assigned (snd (load sys_modules env0 c0))
           = environ_assignments ++ c_assignments cls.
Proof.
  unfold importable, exports, imported_authenticator.
  destruct (sys_modules !! "oauthenticator.comanage") as [ns1|] eqn:E1;
    [|discriminate].
  destruct (sys_modules !! "jupyterhub.comanage") as [ns2|] eqn:E2;
    [|rewrite andb_false_r; discriminate].
  destruct (ns1 !! "COManageOAuthenticator") as [v1|] eqn:N1;
    [|cbn; rewrite N1; discriminate].
  destruct (ns1 !! "LocalCOManageOAuthenticator") as [cls|] eqn:N2;
    [|cbn; rewrite N1, N2; discriminate].
  destruct (ns2 !! "NormalizedSpawner") as [v3|] eqn:N3;
    [|cbn; rewrite N1, N2, N3; discriminate].
  intros _. exists cls. split; [cbn; exact N2|].
  run. cbn [import_from]. rewrite N1, N2, N3.
  split; vm_compute; reflexivity.
Qed.

Lemma load_not_importable :
  importable sys_modules = false →
  ∃ e, is_ImportError e = true
       ∧ fst (load sys_modules env0 c0) = Raised e
       ∧ assigned (snd (load sys_modules env0 c0)) = environ_assignments.
Proof.
  unfold importable, exports.
  destruct (sys_modules !! "oauthenticator.comanage") as [ns1|] eqn:E1.
  2:{ intros _. eexists. split; [|run; split; vm_compute; reflexivity].
      reflexivity. }
  destruct (ns1 !! "COManageOAuthenticator") as [v1|] eqn:N1.
  2:{ intros _. eexists. split;
        [|run; cbn [import_from]; rewrite N1; split; vm_compute; reflexivity].
      reflexivity. }
  destruct (ns1 !! "LocalCOManageOAuthenticator") as [cls|] eqn:N2.
  2:{ intros _. eexists. split;
        [|run; cbn [import_from]; rewrite N1, N2; split; vm_compute; reflexivity].
      reflexivity. }
  destruct (sys_modules !! "jupyterhub.comanage") as [ns2|] eqn:E2.
  2:{ intros _. eexists. split;
        [|run; cbn [import_from]; rewrite N1, N2; split; vm_compute; reflexivity].
      reflexivity. }
  destruct (ns2 !! "NormalizedSpawner") as [v3|] eqn:N3.
  2:{ intros _. eexists. split;
        [|run; cbn [import_from]; rewrite N1, N2, N3; split; vm_compute; reflexivity].
      reflexivity. }
  cbn. rewrite N1, N2, N3. discriminate.
Qed.

End Run.

Lemma file_targets_NoDup (cls : value) :
  NoDup (map lhs (environ_assignments ++ c_assignments cls)).
Proof. apply (bool_decide_unpack _). by vm_compute. Qed.

Lemma file_targets_documented (cls : value) (t : target) :
  t ∈ map lhs (environ_assignments ++ c_assignments cls)
  ↔ t ∈ documented ++ [Attr "Spawner" "debug"].
Proof.
  split; revert t; apply Forall_forall, (bool_decide_unpack _); by vm_compute.
Qed.

(** The log of a load: the assignments to the environment, followed by
    those to the configuration object when both imports went through. *)
Lemma load_log (sys_modules : gmap string (gmap string value))
    (env0 : gmap string string) (c0 : Config) :
  ∃ cls, assigned (snd (load sys_modules env0 c0)) = environ_assignments
         ∨ assigned (snd (load sys_modules env0 c0))
           = environ_assignments ++ c_assignments cls.
Proof.
  destruct (importable sys_modules) eqn:Himp.
  - destruct (load_importable sys_modules env0 c0 Himp) as (cls & _ & _ & Hlog).
    exists cls. by right.
  - destruct (load_not_importable sys_modules env0 c0 Himp) as (e & _ & _ & Hlog).
    exists (VBool false). by left.
Qed.

Lemma load_log_NoDup (sys_modules : gmap string (gmap string value))
    (env0 : gmap string string) (c0 : Config) :
  NoDup (map lhs (assigned (snd (load sys_modules env0 c0)))).
Proof.
  destruct (load_log sys_modules env0 c0) as [cls [-> | ->]].
  - apply (bool_decide_unpack _). by vm_compute.
  - apply file_targets_NoDup.
Qed.

(** After a load every assignment of the log can be read back. *)
Lemma load_read_back (sys_modules : gmap string (gmap string value))
    (env0 : gmap string string) (c0 : Config) (a : assignment) :
  a ∈ assigned (snd (load sys_modules env0 c0)) →
  read (snd (load sys_modules env0 c0)) (lhs a) = Some (rhs a).
Proof.
  intros Hin. rewrite (load_coherent env0 c0 sys_modules (lhs a)).
  apply last_assigned_once; [apply load_log_NoDup | done].
Qed.

(** A load leaves alone what its log does not mention. *)
Lemma load_read_other (sys_modules : gmap string (gmap string value))
    (env0 : gmap string string) (c0 : Config) (t : target) :
  t ∉ map lhs (assigned (snd (load sys_modules env0 c0))) →
  read (snd (load sys_modules env0 c0)) t = read (start env0 c0) t.
Proof.
  intros Hnot. rewrite (load_coherent env0 c0 sys_modules t).
  by apply last_assigned_other.
Qed.

Lemma assignments_to_NoDup (t : target) (log : list assignment) :
  NoDup (map lhs log) →
  assignments_to t log = (if bool_decide (t ∈ map lhs log) then 1 else 0)%nat.
Proof.
  unfold assignments_to.
  induction log as [|a log IH]; [done|].
  cbn [map]. intros [Hfresh Hlog]%NoDup_cons. specialize (IH Hlog).
  rewrite filter_cons. destruct (decide (lhs a = t)) as [<-|Hne].
  - cbn [length]. rewrite IH.
    rewrite (bool_decide_eq_false_2 _ Hfresh).
    rewrite bool_decide_eq_true_2; [done | by left].
  - rewrite IH. apply (f_equal (λ b : bool, if b then _ else _)).
    apply bool_decide_ext. rewrite elem_of_cons.
    split; [by right | by intros [?|?]].
Qed.

(** The environment assignments run in every load. *)
Lemma load_environ (sys_modules : gmap string (gmap string value))
    (env0 : gmap string string) (c0 : Config) (name val : string) :
  Assign (EnvVar name) (VStr val) ∈ environ_assignments →
  environ (snd (load sys_modules env0 c0)) !! name = Some val.
Proof.
  intros Hin.
  pose proof (load_read_back sys_modules env0 c0 (Assign (EnvVar name) (VStr val)))
    as Hread.
  cbn in Hread.
  destruct (environ (snd (load sys_modules env0 c0)) !! name) as [val'|].
  - cbn in Hread. enough (Some (VStr val') = Some (VStr val)) by congruence.
    apply Hread.
    destruct (load_log sys_modules env0 c0) as [cls [-> | ->]];
      [done | apply elem_of_app; by left].
  - cbn in Hread. discriminate Hread.
    destruct (load_log sys_modules env0 c0) as [cls [-> | ->]];
      [done | apply elem_of_app; by left].
Qed.

(** Environment variables other than the four are left alone. *)
Lemma load_environ_other (sys_modules : gmap string (gmap string value))
    (env0 : gmap string string) (c0 : Config) (name : string) :
  EnvVar name ∉ map lhs environ_assignments →
  environ (snd (load sys_modules env0 c0)) !! name = env0 !! name.
Proof.
  intros Hnot.
  pose proof (load_read_other sys_modules env0 c0 (EnvVar name)) as Hread.
  cbn in Hread.
  enough (VStr <$> environ (snd (load sys_modules env0 c0)) !! name
          = VStr <$> env0 !! name) as Heq.
  { destruct (environ _ !! name), (env0 !! name); cbn in Heq; congruence. }
  apply Hread.
  destruct (load_log sys_modules env0 c0) as [cls [-> | ->]]; [done|].
  rewrite map_app. intros [Hin|Hin]%elem_of_app; [done|].
  revert Hin. cbn. rewrite !elem_of_cons, elem_of_nil. intros Hin.
  repeat destruct Hin as [Hin|Hin]; done.
Qed.

(** The settings assignments run when both imports go through. *)
Lemma load_getattr (sys_modules : gmap string (gmap string value))
    (env0 : gmap string string) (c0 : Config) (cls : value)
    (section key : string) (v : value) :
  assigned (snd (load sys_modules env0 c0))
  = environ_assignments ++ c_assignments cls →
  Assign (Attr section key) v ∈ c_assignments cls →
  getattr (c (snd (load sys_modules env0 c0))) section key = Some v.
Proof.
  intros Hlog Hin.
  apply (load_read_back sys_modules env0 c0 (Assign (Attr section key) v)).
  rewrite Hlog. apply elem_of_app. by right.
Qed.

(** * The claims *)

(** C1, as stated, fails: with both plugin modules installed, loading into
    an empty configuration object sets [c.Spawner.debug], a key that no row
    of the option table documents. *)
Lemma spawner_debug_not_in_option_table :
  importable installed = true
  ∧ getattr (c (snd (load installed ∅ ∅))) "Spawner" "debug" = Some (VBool true)
  ∧ (Attr "Spawner" "debug" ∉ documented)
  ∧ ¬ (∀ section key,
         is_Some (getattr (c (snd (load installed ∅ ∅))) section key)
         ↔ Attr section key ∈ documented).
Proof.
  assert (Hundoc : Attr "Spawner" "debug" ∉ documented)
    by (apply (bool_decide_unpack _); vm_compute; exact I).
  assert (Hset : getattr (c (snd (load installed ∅ ∅))) "Spawner" "debug"
                 = Some (VBool true)) by (vm_compute; reflexivity).
  split; [vm_compute; reflexivity|].
  split; [exact Hset|]. split; [exact Hundoc|].
  intros Hexact. apply Hundoc, Hexact. rewrite Hset. by eexists.
Qed.

(** C1 (amended): wherever both plugin modules can be imported, loading the
    file returns without raising; every target the file assigns (the four
    environment variables and the fourteen settings) then holds the value
    written in the file, [authenticator_class] holding the imported class;
    the targets assigned are those of the option table together with
    [c.Spawner.debug]; and every other target is left as it was. *)
Theorem load_populates_option_table_and_spawner_debug
    (sys_modules : gmap string (gmap string value))
    (env0 : gmap string string) (c0 : Config) :
  importable sys_modules = true →
  ∃ cls,
    imported_authenticator sys_modules = Some cls
    ∧ fst (load sys_modules env0 c0) = Returned ()
    ∧ Forall (λ a, read (snd (load sys_modules env0 c0)) (lhs a) = Some (rhs a))
        (environ_assignments ++ c_assignments cls)
    ∧ (∀ t, t ∈ map lhs (environ_assignments ++ c_assignments cls)
            ↔ t ∈ documented ++ [Attr "Spawner" "debug"])
    ∧ (∀ t, t ∉ documented ++ [Attr "Spawner" "debug"] →
            read (snd (load sys_modules env0 c0)) t = read (start env0 c0) t).
Proof.
  intros Himp.
  destruct (load_importable sys_modules env0 c0 Himp) as (cls & Hcls & Hret & Hlog).
  exists cls. split_and!; [done | done | | apply file_targets_documented |].
  - apply Forall_forall. intros a Hin. apply load_read_back. by rewrite Hlog.
  - intros t Hnot. apply load_read_other. rewrite Hlog.
    by rewrite file_targets_documented.
Qed.

Lemma load_populates_option_table_and_spawner_debug_witness :
  importable installed = true
  ∧ ∃ cls,
      imported_authenticator installed = Some cls
      ∧ fst (load installed ∅ ∅) = Returned ()
      ∧ Forall (λ a, read (snd (load installed ∅ ∅)) (lhs a) = Some (rhs a))
          (environ_assignments ++ c_assignments cls)
      ∧ (∀ t, t ∈ map lhs (environ_assignments ++ c_assignments cls)
              ↔ t ∈ documented ++ [Attr "Spawner" "debug"])
      ∧ (∀ t, t ∉ documented ++ [Attr "Spawner" "debug"] →
              read (snd (load installed ∅ ∅)) t = read (start ∅ ∅) t).
Proof.
  split; [vm_compute; reflexivity|].
  apply (load_populates_option_table_and_spawner_debug installed ∅ ∅).
  vm_compute; reflexivity.
Defined.

(** C2, as stated, fails: the value assigned to [idp_whitelist] is a list,
    which is neither a scalar, nor a set, nor a path; with the plugin
    modules installed the log of the load contains it. *)
Lemma idp_whitelist_is_a_list :
  let idp :=
    Assign (Attr "COManageOAuthenticator" "idp_whitelist")
      (VList [VStr "bnl.gov"; VStr "anl.gov"; VStr "ornl.gov"; VStr "lbl.gov"]) in
  idp ∈ assigned (snd (load installed ∅ ∅))
  ∧ simple_scalar (rhs idp) || set_of_strings (rhs idp) || file_path_string (rhs idp)
    = false
  ∧ ¬ Forall (λ a, simple_scalar (rhs a) || set_of_strings (rhs a)
                   || file_path_string (rhs a) = true)
        (assigned (snd (load installed ∅ ∅))).
Proof.
  intros idp.
  assert (Hin : idp ∈ assigned (snd (load installed ∅ ∅))).
  { assert (Himp : importable installed = true) by (vm_compute; reflexivity).
    destruct (load_importable installed ∅ ∅ Himp) as (cls & _ & _ & ->).
    apply elem_of_app. right. do 2 apply list_elem_of_further.
    apply list_elem_of_here. }
  split; [exact Hin|]. split; [reflexivity|].
  intros Hall. rewrite Forall_forall in Hall. specialize (Hall idp Hin).
  discriminate Hall.
Qed.

(** C2 (amended): every value the file assigns is a simple scalar (a
    string, file paths included, an integer or a boolean), a set of strings,
    a list of strings, or, for [authenticator_class], the object imported
    under the name [LocalCOManageOAuthenticator]. *)
Theorem assigned_values_kinds (sys_modules : gmap string (gmap string value))
    (env0 : gmap string string) (c0 : Config) :
  Forall (λ a, simple_scalar (rhs a) || set_of_strings (rhs a)
               || list_of_strings (rhs a) = true
               ∨ (lhs a = Attr "JupyterHub" "authenticator_class"
                  ∧ imported_authenticator sys_modules = Some (rhs a)))
    (assigned (snd (load sys_modules env0 c0))).
Proof.
  destruct (importable sys_modules) eqn:Himp.
  - destruct (load_importable sys_modules env0 c0 Himp) as (cls & Hcls & _ & ->).
    unfold environ_assignments, c_assignments. cbn [app].
    repeat (apply Forall_cons; split; [first [by left | by right] |]).
    apply Forall_nil_2.
  - destruct (load_not_importable sys_modules env0 c0 Himp) as (e & _ & _ & ->).
    unfold environ_assignments.
    repeat (apply Forall_cons; split; [by left |]).
    apply Forall_nil_2.
Qed.

(** C3: in every load, whether it returns or raises, no target is assigned
    more than once; each assignment of the log is the only one to its
    target, and its value is the one read back afterwards. *)
Theorem set_once_read_many (sys_modules : gmap string (gmap string value))
    (env0 : gmap string string) (c0 : Config) :
  let st := snd (load sys_modules env0 c0) in
  (∀ t, assignments_to t (assigned st) ≤ 1)%nat
  ∧ Forall (λ a, assignments_to (lhs a) (assigned st) = 1%nat
                 ∧ read st (lhs a) = Some (rhs a))
      (assigned st)
  ∧ (4 ≤ length (assigned st))%nat.
Proof.
  intros st. pose proof (load_log_NoDup sys_modules env0 c0) as Hnd.
  fold st in Hnd. split_and!.
  - intros t. rewrite (assignments_to_NoDup t _ Hnd). case_bool_decide; lia.
  - apply Forall_forall. intros a Hin. split; [|by apply load_read_back].
    rewrite (assignments_to_NoDup _ _ Hnd).
    rewrite bool_decide_eq_true_2; [done|].
    apply list_elem_of_fmap. by exists a.
  - subst st. destruct (load_log sys_modules env0 c0) as [cls [-> | ->]];
      cbn; lia.
Qed.

(** C4: after a load the environment holds the four variables of the file,
    each bound to the string written there, and nothing else has changed in
    it; when both imports go through, the log starts with these four
    assignments, the selection of the authenticator class comes next, and no
    assignment to the environment follows. *)
Theorem environ_set_before_authenticator
    (sys_modules : gmap string (gmap string value))
    (env0 : gmap string string) (c0 : Config) :
  let st := snd (load sys_modules env0 c0) in
  environ st !! "CILOGON_HOST" = Some "cilogon.org"
  ∧ environ st !! "CILOGON_CLIENT_ID"
    = Some "cilogon:/client_id/5ea8818a26318a9dc03d8a1f82bef34a"
  ∧ environ st !! "CILOGON_CLIENT_SECRET"
    = Some "XXXXXXXXXXXXXXXXXXXXXXXXXXXXXXXXXXXXXXXXXXXXXXXXXXXXXXXXXXXXXXXXXXXXXXXXXXXx"
  ∧ environ st !! "JUPYTERHUB_CRYPT_KEY"
    = Some "XXXXXXXXXXXXXXXXXXXXXXXXXXXXXXXXXXXXXXXXXXXXXXXXXXXXXXXXXXXXxxxx"
  ∧ dom (environ st)
    = {[ "CILOGON_HOST"; "CILOGON_CLIENT_ID"; "CILOGON_CLIENT_SECRET";
         "JUPYTERHUB_CRYPT_KEY" ]} ∪ dom env0
  ∧ (∀ name, name ∉ [ "CILOGON_HOST"; "CILOGON_CLIENT_ID";
                      "CILOGON_CLIENT_SECRET"; "JUPYTERHUB_CRYPT_KEY" ] →
             environ st !! name = env0 !! name)
  ∧ (importable sys_modules = true →
     ∃ cls rest,
       assigned st
       = environ_assignments
         ++ Assign (Attr "JupyterHub" "authenticator_class") cls :: rest
       ∧ Forall (λ a, ∀ name, lhs a ≠ EnvVar name) rest).
Proof.
  intros st. subst st.
  assert (Hother : ∀ name,
    name ∉ [ "CILOGON_HOST"; "CILOGON_CLIENT_ID";
             "CILOGON_CLIENT_SECRET"; "JUPYTERHUB_CRYPT_KEY" ] →
    environ (snd (load sys_modules env0 c0)) !! name = env0 !! name).
  { intros name Hnot. apply load_environ_other. intros Hin. apply Hnot.
    revert Hin. cbn. rewrite !elem_of_cons, !elem_of_nil.
    intros Hin. repeat destruct Hin as [Hin|Hin]; try done;
      injection Hin as ->; tauto. }
  pose proof (load_environ sys_modules env0 c0) as Henv.
  split_and!; try (apply Henv; unfold environ_assignments; in_log); [|done|].
  - apply set_eq. intros name. rewrite elem_of_union, !elem_of_dom.
    destruct (decide (name ∈ [ "CILOGON_HOST"; "CILOGON_CLIENT_ID";
                "CILOGON_CLIENT_SECRET"; "JUPYTERHUB_CRYPT_KEY" ])) as [Hin|Hnot].
    + revert Hin. rewrite !elem_of_cons, elem_of_nil. intros Hin.
      split; [intros _; left; rewrite !elem_of_union, !elem_of_singleton; tauto
             |intros _].
      repeat destruct Hin as [Hin|Hin]; try done; subst name;
        (eexists; apply Henv; unfold environ_assignments; in_log).
    + rewrite (Hother name Hnot). split; [by right|].
      intros [Hin|Hin]; [|done]. exfalso. apply Hnot. revert Hin.
      rewrite !elem_of_union, !elem_of_singleton, !elem_of_cons, elem_of_nil.
      tauto.
  - intros Himp.
    destruct (load_importable sys_modules env0 c0 Himp) as (cls & _ & _ & ->).
    exists cls. eexists. split; [reflexivity|].
    repeat (apply Forall_cons; split; [done|]). apply Forall_nil_2.
Qed.

Lemma environ_set_before_authenticator_witness :
  importable installed = true
  ∧ dom (environ (snd (load installed ∅ ∅)))
    = {[ "CILOGON_HOST"; "CILOGON_CLIENT_ID"; "CILOGON_CLIENT_SECRET";
         "JUPYTERHUB_CRYPT_KEY" ]}
  ∧ ∃ cls rest,
      assigned (snd (load installed ∅ ∅))
      = environ_assignments
        ++ Assign (Attr "JupyterHub" "authenticator_class") cls :: rest
      ∧ Forall (λ a, ∀ name, lhs a ≠ EnvVar name) rest.
Proof.
  assert (Himp : importable installed = true) by (vm_compute; reflexivity).
  destruct (environ_set_before_authenticator installed ∅ ∅)
    as (_ & _ & _ & _ & Hdom & _ & Hlog).
  split; [exact Himp|]. split; [|exact (Hlog Himp)].
  rewrite Hdom, dom_empty_L. apply (right_id_L ∅ (∪)).
Defined.

(** C5: after a load with both imports through, the identity-provider
    whitelist holds exactly the four domains and the group whitelist exactly
    the two group names written in the file. *)
Theorem whitelists_loaded (sys_modules : gmap string (gmap string value))
    (env0 : gmap string string) (c0 : Config) :
  importable sys_modules = true →
  let st := snd (load sys_modules env0 c0) in
  ∃ idps groups,
    getattr (c st) "COManageOAuthenticator" "idp_whitelist"
    = Some (VList (VStr <$> idps))
    ∧ getattr (c st) "COManageOAuthenticator" "comanage_group_whitelist"
      = Some (VList (VStr <$> groups))
    ∧ idps = ["bnl.gov"; "anl.gov"; "ornl.gov"; "lbl.gov"]
    ∧ groups = ["CO:members:active"; "bnl"]
    ∧ (∀ d, d ∈ idps
            ↔ d = "bnl.gov" ∨ d = "anl.gov" ∨ d = "ornl.gov" ∨ d = "lbl.gov")
    ∧ (∀ g, g ∈ groups ↔ g = "CO:members:active" ∨ g = "bnl").
Proof.
  intros Himp st. subst st.
  destruct (load_importable sys_modules env0 c0 Himp) as (cls & _ & _ & Hlog).
  exists ["bnl.gov"; "anl.gov"; "ornl.gov"; "lbl.gov"], ["CO:members:active"; "bnl"].
  split_and!; try reflexivity.
  - apply (load_getattr _ _ _ cls); [done | unfold c_assignments; in_log].
  - apply (load_getattr _ _ _ cls); [done | unfold c_assignments; in_log].
  - intros d. rewrite !elem_of_cons, elem_of_nil. tauto.
  - intros g. rewrite !elem_of_cons, elem_of_nil. tauto.
Qed.

Lemma whitelists_loaded_witness :
  importable installed = true
  ∧ ∃ idps groups,
      getattr (c (snd (load installed ∅ ∅))) "COManageOAuthenticator" "idp_whitelist"
      = Some (VList (VStr <$> idps))
      ∧ getattr (c (snd (load installed ∅ ∅)))
          "COManageOAuthenticator" "comanage_group_whitelist"
        = Some (VList (VStr <$> groups))
      ∧ idps = ["bnl.gov"; "anl.gov"; "ornl.gov"; "lbl.gov"]
      ∧ groups = ["CO:members:active"; "bnl"]
      ∧ (∀ d, d ∈ idps
              ↔ d = "bnl.gov" ∨ d = "anl.gov" ∨ d = "ornl.gov" ∨ d = "lbl.gov")
      ∧ (∀ g, g ∈ groups ↔ g = "CO:members:active" ∨ g = "bnl").
Proof.
  split; [vm_compute; reflexivity|].
  apply (whitelists_loaded installed ∅ ∅). vm_compute; reflexivity.
Defined.

(** C6: after a load with both imports through, [spawner_class] is the
    dotted name of the local-process spawner. *)
Theorem spawner_class_loaded (sys_modules : gmap string (gmap string value))
    (env0 : gmap string string) (c0 : Config) :
  importable sys_modules = true →
  getattr (c (snd (load sys_modules env0 c0))) "JupyterHub" "spawner_class"
  = Some (VStr "jupyterhub.spawner.LocalProcessSpawner").
Proof.
  intros Himp.
  destruct (load_importable sys_modules env0 c0 Himp) as (cls & _ & _ & Hlog).
  apply (load_getattr _ _ _ cls); [done | unfold c_assignments; in_log].
Qed.

Lemma spawner_class_loaded_witness :
  importable installed = true
  ∧ getattr (c (snd (load installed ∅ ∅))) "JupyterHub" "spawner_class"
    = Some (VStr "jupyterhub.spawner.LocalProcessSpawner").
Proof.
  split; [vm_compute; reflexivity|].
  apply (spawner_class_loaded installed ∅ ∅). vm_compute; reflexivity.
Defined.

(** C7: after a load with both imports through, [admin_users] is the set
    whose only member is jhover@bnl.gov, and [enable_auth_state] and
    [create_system_users] are both [True]. *)
Theorem admin_and_flags_loaded (sys_modules : gmap string (gmap string value))
    (env0 : gmap string string) (c0 : Config) :
  importable sys_modules = true →
  let st := snd (load sys_modules env0 c0) in
  (∃ admins, getattr (c st) "Authenticator" "admin_users" = Some (VSet admins)
             ∧ ∀ user, user ∈ admins ↔ user = "jhover@bnl.gov")
  ∧ getattr (c st) "Authenticator" "enable_auth_state" = Some (VBool true)
  ∧ getattr (c st) "LocalAuthenticator" "create_system_users" = Some (VBool true).
Proof.
  intros Himp st. subst st.
  destruct (load_importable sys_modules env0 c0 Himp) as (cls & _ & _ & Hlog).
  split_and!.
  - exists {["jhover@bnl.gov"]}. split; [|intros user; apply elem_of_singleton].
    apply (load_getattr _ _ _ cls); [done | unfold c_assignments; in_log].
  - apply (load_getattr _ _ _ cls); [done | unfold c_assignments; in_log].
  - apply (load_getattr _ _ _ cls); [done | unfold c_assignments; in_log].
Qed.

Lemma admin_and_flags_loaded_witness :
  importable installed = true
  ∧ (∃ admins,
       getattr (c (snd (load installed ∅ ∅))) "Authenticator" "admin_users"
       = Some (VSet admins)
       ∧ ∀ user, user ∈ admins ↔ user = "jhover@bnl.gov")
  ∧ getattr (c (snd (load installed ∅ ∅))) "Authenticator" "enable_auth_state"
    = Some (VBool true)
  ∧ getattr (c (snd (load installed ∅ ∅)))
      "LocalAuthenticator" "create_system_users"
    = Some (VBool true).
Proof.
  split; [vm_compute; reflexivity|].
  apply (admin_and_flags_loaded installed ∅ ∅). vm_compute; reflexivity.
Defined.

(** Rebinding [NormalizedSpawner] in [jupyterhub.comanage] keeps the file
    importable and does not change the imported authenticator class. *)
Lemma rebind_spawner_importable (sys_modules : gmap string (gmap string value))
    (ns : gmap string value) (v : value) :
  importable sys_modules = true →
  importable (<["jupyterhub.comanage" := <["NormalizedSpawner" := v]> ns]> sys_modules)
  = true
  ∧ imported_authenticator
      (<["jupyterhub.comanage" := <["NormalizedSpawner" := v]> ns]> sys_modules)
    = imported_authenticator sys_modules.
Proof.
  unfold importable, imported_authenticator, exports.
  rewrite lookup_insert_eq, lookup_insert_ne by done.
  intros [Hfirst _]%andb_true_iff. rewrite Hfirst. split; [|done].
  cbn. by rewrite lookup_insert_eq.
Qed.

(** C8: when [jupyterhub.comanage] cannot be imported the load raises an
    [ImportError]; a load that returns has found the module and its
    [NormalizedSpawner], yet [spawner_class] is the dotted string, and
    whatever object the module binds to [NormalizedSpawner], the log and
    every value read back are the same. *)
Theorem normalized_spawner_required_but_unused
    (sys_modules : gmap string (gmap string value))
    (env0 : gmap string string) (c0 : Config) :
  (sys_modules !! "jupyterhub.comanage" = None →
   ∃ e, fst (load sys_modules env0 c0) = Raised e ∧ is_ImportError e = true)
  ∧ (fst (load sys_modules env0 c0) = Returned () →
     let st := snd (load sys_modules env0 c0) in
     exports sys_modules "jupyterhub.comanage" ["NormalizedSpawner"] = true
     ∧ getattr (c st) "JupyterHub" "spawner_class"
       = Some (VStr "jupyterhub.spawner.LocalProcessSpawner")
     ∧ ∀ ns v,
         let st' :=
           snd (load (<["jupyterhub.comanage" := <["NormalizedSpawner" := v]> ns]>
                        sys_modules) env0 c0) in
         assigned st' = assigned st ∧ ∀ t, read st' t = read st t).
Proof.
  split.
  - intros Hmissing.
    assert (Himp : importable sys_modules = false).
    { unfold importable, exports. rewrite Hmissing. apply andb_false_r. }
    destruct (load_not_importable sys_modules env0 c0 Himp) as (e & He & Hraised & _).
    by exists e.
  - intros Hret st. subst st.
    destruct (importable sys_modules) eqn:Himp.
    2:{ destruct (load_not_importable sys_modules env0 c0 Himp) as (e & _ & Hraised & _).
        congruence. }
    destruct (load_importable sys_modules env0 c0 Himp) as (cls & Hcls & _ & Hlog).
    split_and!.
    + unfold importable in Himp. by apply andb_true_iff in Himp as [_ ?].
    + apply (load_getattr _ _ _ cls); [done | unfold c_assignments; in_log].
    + intros ns v.
      destruct (rebind_spawner_importable sys_modules ns v Himp) as [Himp' Hcls'].
      destruct (load_importable _ env0 c0 Himp') as (cls' & Hcls'' & _ & Hlog').
      assert (cls' = cls) as -> by congruence.
      cbn zeta. split; [congruence|]. intros t.
      rewrite (load_coherent env0 c0 _ t), (load_coherent env0 c0 sys_modules t).
      by rewrite Hlog, Hlog'.
Qed.

Lemma normalized_spawner_required_but_unused_witness :
  (∃ e, fst (load without_jupyterhub_comanage ∅ ∅) = Raised e
        ∧ is_ImportError e = true)
  ∧ fst (load installed ∅ ∅) = Returned ()
  ∧ exports installed "jupyterhub.comanage" ["NormalizedSpawner"] = true
  ∧ getattr (c (snd (load installed ∅ ∅))) "JupyterHub" "spawner_class"
    = Some (VStr "jupyterhub.spawner.LocalProcessSpawner")
  ∧ ∀ ns v,
      let st' :=
        snd (load (<["jupyterhub.comanage" := <["NormalizedSpawner" := v]> ns]>
                     installed) ∅ ∅) in
      assigned st' = assigned (snd (load installed ∅ ∅))
      ∧ ∀ t, read st' t = read (snd (load installed ∅ ∅)) t.
Proof.
  split.
  - apply (normalized_spawner_required_but_unused without_jupyterhub_comanage ∅ ∅).
    vm_compute; reflexivity.
  - assert (Hret : fst (load installed ∅ ∅) = Returned ())
      by (vm_compute; reflexivity).
    split; [exact Hret|].
    apply (normalized_spawner_required_but_unused installed ∅ ∅). exact Hret.
Defined.

(** C9: after a load with both imports through, the debug flags of the
    proxy and of the spawner are both [True] and the log level is 10. *)
Theorem debug_output_enabled (sys_modules : gmap string (gmap string value))
    (env0 : gmap string string) (c0 : Config) :
  importable sys_modules = true →
  let st := snd (load sys_modules env0 c0) in
  getattr (c st) "ConfigurableHTTPProxy" "debug" = Some (VBool true)
  ∧ getattr (c st) "Spawner" "debug" = Some (VBool true)
  ∧ getattr (c st) "JupyterHub" "log_level" = Some (VInt 10).
Proof.
  intros Himp st. subst st.
  destruct (load_importable sys_modules env0 c0 Himp) as (cls & _ & _ & Hlog).
  split_and!;
    (apply (load_getattr _ _ _ cls); [done | unfold c_assignments; in_log]).
Qed.

Lemma debug_output_enabled_witness :
  importable installed = true
  ∧ getattr (c (snd (load installed ∅ ∅))) "ConfigurableHTTPProxy" "debug"
    = Some (VBool true)
  ∧ getattr (c (snd (load installed ∅ ∅))) "Spawner" "debug" = Some (VBool true)
  ∧ getattr (c (snd (load installed ∅ ∅))) "JupyterHub" "log_level"
    = Some (VInt 10).
Proof.
  split; [vm_compute; reflexivity|].
  apply (debug_output_enabled installed ∅ ∅). vm_compute; reflexivity.
Defined.

(** C10: in every load the client secret and the signing key are bound to
    strings made of the characters X and x only: 75 X and one x, and 60 X
    and four x. *)
Theorem secrets_are_placeholders (sys_modules : gmap string (gmap string value))
    (env0 : gmap string string) (c0 : Config) :
  let st := snd (load sys_modules env0 c0) in
  ∃ secret key,
    environ st !! "CILOGON_CLIENT_SECRET" = Some secret
    ∧ environ st !! "JUPYTERHUB_CRYPT_KEY" = Some key
    ∧ redacted secret = true
    ∧ redacted key = true
    ∧ list_ascii_of_string secret = repeat "X"%char 75 ++ repeat "x"%char 1
    ∧ list_ascii_of_string key = repeat "X"%char 60 ++ repeat "x"%char 4.
Proof.
  intros st. subst st.
  eexists. eexists.
  split; [apply load_environ; unfold environ_assignments; in_log|].
  split; [apply load_environ; unfold environ_assignments; in_log|].
  split_and!; vm_compute; reflexivity.
Qed.

(** * Further properties of a load *)

(** ** The outcome *)

(** The outcome of a load, read off the module table in the order in which
    the two imports look things up. *)
Lemma load_outcome (sys_modules : gmap string (gmap string value))
    (env0 : gmap string string) (c0 : Config) :
  fst (load sys_modules env0 c0)
  = match sys_modules !! "oauthenticator.comanage" with
    | None => Raised (ModuleNotFoundError "oauthenticator.comanage")
    | Some ns1 =>
        match ns1 !! "COManageOAuthenticator" with
        | None => Raised (ImportError "oauthenticator.comanage" "COManageOAuthenticator")
        | Some _ =>
            match ns1 !! "LocalCOManageOAuthenticator" with
            | None => Raised (ImportError "oauthenticator.comanage"
                                "LocalCOManageOAuthenticator")
            | Some _ =>
                match sys_modules !! "jupyterhub.comanage" with
                | None => Raised (ModuleNotFoundError "jupyterhub.comanage")
                | Some ns2 =>
                    match ns2 !! "NormalizedSpawner" with
                    | None => Raised (ImportError "jupyterhub.comanage"
                                        "NormalizedSpawner")
                    | Some _ => Returned ()
                    end
                end
            end
        end
    end.
Proof.
  destruct (sys_modules !! "oauthenticator.comanage") as [ns1|] eqn:E1;
    [|run; vm_compute; reflexivity].
  destruct (ns1 !! "COManageOAuthenticator") as [v1|] eqn:N1;
    [|run; cbn [import_from]; rewrite N1; vm_compute; reflexivity].
  destruct (ns1 !! "LocalCOManageOAuthenticator") as [cls|] eqn:N2;
    [|run; cbn [import_from]; rewrite N1, N2; vm_compute; reflexivity].
  destruct (sys_modules !! "jupyterhub.comanage") as [ns2|] eqn:E2;
    [|run; cbn [import_from]; rewrite N1, N2; vm_compute; reflexivity].
  destruct (ns2 !! "NormalizedSpawner") as [v3|] eqn:N3;
    run; cbn [import_from]; rewrite N1, N2, N3; vm_compute; reflexivity.
Qed.

(** ** The state is the replay of the log *)

Lemma keeps_ret (I : state → Prop) {A : Type} (a : A) : keeps I (mret a).
Proof. by intros st. Qed.

Lemma keeps_raise (I : state → Prop) {A : Type} (e : exn) : keeps I (@raise A e).
Proof. by intros st. Qed.

Lemma keeps_bind (I : state → Prop) {A B : Type} (m : Py A) (k : A → Py B) :
  keeps I m → (∀ a, keeps I (k a)) → keeps I (m ≫= k).
Proof.
  intros Hm Hk st Hst. specialize (Hm st Hst).
  unfold mbind, Py_bind. destruct (m st) as [[a|e] st']; [|done].
  by apply Hk.
Qed.

Lemma keeps_load_name (I : state → Prop) (name : string) : keeps I (load_name name).
Proof. intros st Hst. unfold load_name. by destruct (globals st !! name). Qed.

Lemma replay_environ_snoc (env : gmap string string) (log : list assignment)
    (a : assignment) :
  replay_environ env (log ++ [a])
  = match lhs a, rhs a with
    | EnvVar name, VStr val => <[name := val]> (replay_environ env log)
    | _, _ => replay_environ env log
    end.
Proof. unfold replay_environ. by rewrite foldl_app. Qed.

Lemma replay_c_snoc (cfg : Config) (log : list assignment) (a : assignment) :
  replay_c cfg (log ++ [a])
  = match lhs a with
    | Attr section key => setattr (replay_c cfg log) section key (rhs a)
    | EnvVar _ => replay_c cfg log
    end.
Proof. unfold replay_c. by rewrite foldl_app. Qed.

Section Replay.

Variable env0 : gmap string string.
Variable c0 : Config.

Lemma replayed_start : replayed env0 c0 (start env0 c0).
Proof. by split. Qed.

Lemma replayed_store_name (name : string) (v : value) :
  keeps (replayed env0 c0) (store_name name v).
Proof. by intros st [Henv Hc]. Qed.

Lemma replayed_environ_setitem (key val : string) :
  keeps (replayed env0 c0) (environ_setitem key val).
Proof.
  apply keeps_bind; [apply keeps_load_name|].
  intros _ st [Henv Hc]. unfold modify. split; cbn [snd environ c assigned].
  - rewrite replay_environ_snoc. cbn. by rewrite Henv.
  - rewrite replay_c_snoc. by cbn.
Qed.

Lemma replayed_c_setattr (section key : string) (v : value) :
  keeps (replayed env0 c0) (c_setattr section key v).
Proof.
  intros st [Henv Hc]. unfold c_setattr, modify.
  split; cbn [snd environ c assigned].
  - rewrite replay_environ_snoc. by cbn.
  - rewrite replay_c_snoc. cbn. by rewrite Hc.
Qed.

Lemma replayed_from_import (sys_modules : gmap string (gmap string value))
    (module : string) (names : list string) :
  keeps (replayed env0 c0) (from_import sys_modules module names).
Proof.
  unfold from_import. destruct (sys_modules !! module) as [ns|];
    [|apply keeps_raise].
  induction names as [|n names IH]; cbn; [apply keeps_ret|].
  destruct (ns !! n); [|apply keeps_raise].
  apply keeps_bind; [apply replayed_store_name | done].
Qed.

Lemma load_replayed (sys_modules : gmap string (gmap string value)) :
  replayed env0 c0 (snd (load sys_modules env0 c0)).
Proof.
  enough (keeps (replayed env0 c0) (jupyterhub_config_comanage sys_modules))
    as Hbody by apply Hbody, replayed_start.
  unfold jupyterhub_config_comanage, import_os.
  repeat lazymatch goal with
    | |- keeps _ (store_name _ _) => apply replayed_store_name
    | |- keeps _ (load_name _) => apply keeps_load_name
    | |- keeps _ (environ_setitem _ _) => apply replayed_environ_setitem
    | |- keeps _ (c_setattr _ _ _) => apply replayed_c_setattr
    | |- keeps _ (from_import _ _ _) => apply replayed_from_import
    | |- keeps _ (_ ≫= _) => apply keeps_bind; [|intros ?]
    end.
Qed.

End Replay.

(** Replaying assignments that a state already holds changes nothing. *)
Lemma replay_held (st : state) (log : list assignment) :
  (∀ a, a ∈ log → read st (lhs a) = Some (rhs a)) →
  replay_environ (environ st) log = environ st
  ∧ replay_c (c st) log = c st.
Proof.
  induction log as [|a log IH] using rev_ind; [done|].
  intros Hheld.
  destruct IH as [IHenv IHc].
  { intros b Hb. apply Hheld, elem_of_app. by left. }
  specialize (Hheld a). rewrite replay_environ_snoc, replay_c_snoc, IHenv, IHc.
  destruct a as [[name|section key] v]; cbn in *.
  - split; [|done]. destruct v; try done.
    apply insert_id.
    destruct (environ st !! name) as [val|] eqn:Hval; cbn in Hheld.
    + enough (Some (VStr val) = Some (VStr s)) by congruence.
      apply Hheld, elem_of_app. right. by apply list_elem_of_singleton.
    + discriminate Hheld. apply elem_of_app. right. by apply list_elem_of_singleton.
  - split; [done|]. unfold setattr.
    assert (Hget : getattr (c st) section key = Some v).
    { apply Hheld, elem_of_app. right. by apply list_elem_of_singleton. }
    unfold getattr in Hget.
    destruct (c st !! section) as [sec|] eqn:Hsec; [|done]. cbn in Hget |- *.
    rewrite (insert_id sec key v Hget). by apply insert_id.
Qed.

(** The log of a load depends on the module table only. *)
Lemma load_log_initial (sys_modules : gmap string (gmap string value))
    (env0 env1 : gmap string string) (c0 c1 : Config) :
  assigned (snd (load sys_modules env0 c0))
  = assigned (snd (load sys_modules env1 c1)).
Proof.
  destruct (importable sys_modules) eqn:Himp.
  - destruct (load_importable sys_modules env0 c0 Himp) as (cls & Hcls & _ & ->).
    destruct (load_importable sys_modules env1 c1 Himp) as (cls' & Hcls' & _ & ->).
    congruence.
  - destruct (load_not_importable sys_modules env0 c0 Himp) as (e & _ & _ & ->).
    by destruct (load_not_importable sys_modules env1 c1 Himp) as (e' & _ & _ & ->).
Qed.

(** The environment after a load, in closed form. *)
Lemma load_environ_closed (sys_modules : gmap string (gmap string value))
    (env0 : gmap string string) (c0 : Config) :
  environ (snd (load sys_modules env0 c0))
  = replay_environ env0 environ_assignments.
Proof.
  destruct (load_replayed env0 c0 sys_modules) as [-> _].
  destruct (load_log sys_modules env0 c0) as [cls [-> | ->]]; [done|].
  unfold replay_environ. by rewrite foldl_app.
Qed.

(** The configuration object after a load, in closed form. *)
Lemma load_c_closed (sys_modules : gmap string (gmap string value))
    (env0 : gmap string string) (c0 : Config) :
  c (snd (load sys_modules env0 c0))
  = if importable sys_modules
    then replay_c c0 (c_assignments
                        (default (VBool false) (imported_authenticator sys_modules)))
    else c0.
Proof.
  destruct (load_replayed env0 c0 sys_modules) as [_ ->].
  destruct (importable sys_modules) eqn:Himp.
  - destruct (load_importable sys_modules env0 c0 Himp) as (cls & -> & _ & ->).
    unfold replay_c. by rewrite foldl_app.
  - by destruct (load_not_importable sys_modules env0 c0 Himp) as (e & _ & _ & ->).
Qed.

Lemma dom_setattr (cfg : Config) (section key : string) (v : value) :
  dom (setattr cfg section key v) = {[section]} ∪ dom cfg.
Proof. unfold setattr. apply dom_insert_L. Qed.

(** ** Properties *)



(** X2: a load that raises has already set the four environment variables
    and they stay set, but it leaves the configuration object exactly as it
    was. *)
Theorem failed_load_sets_environ_only
    (sys_modules : gmap string (gmap string value))
    (env0 : gmap string string) (c0 : Config) (e : exn) :
  fst (load sys_modules env0 c0) = Raised e →
  let st := snd (load sys_modules env0 c0) in
  c st = c0
  ∧ assigned st = environ_assignments
  ∧ environ st
    = <["JUPYTERHUB_CRYPT_KEY" :=
          "XXXXXXXXXXXXXXXXXXXXXXXXXXXXXXXXXXXXXXXXXXXXXXXXXXXXXXXXXXXXxxxx"]>
      (<["CILOGON_CLIENT_SECRET" :=
           "XXXXXXXXXXXXXXXXXXXXXXXXXXXXXXXXXXXXXXXXXXXXXXXXXXXXXXXXXXXXXXXXXXXXXXXXXXXx"]>
       (<["CILOGON_CLIENT_ID" :=
            "cilogon:/client_id/5ea8818a26318a9dc03d8a1f82bef34a"]>
        (<["CILOGON_HOST" := "cilogon.org"]> env0))).
Proof.
  intros Hraised st. subst st.
  assert (Himp : importable sys_modules = false).
  { destruct (importable sys_modules) eqn:Himp; [|done].
    destruct (load_importable sys_modules env0 c0 Himp) as (cls & _ & Hret & _).
    congruence. }
  split_and!.
  - by rewrite load_c_closed, Himp.
  - by destruct (load_not_importable sys_modules env0 c0 Himp) as (e' & _ & _ & ->).
  - by rewrite load_environ_closed.
Qed.

Lemma failed_load_sets_environ_only_witness :
  c (snd (load (without_module "oauthenticator.comanage") ∅ ∅)) = ∅
  ∧ assigned (snd (load (without_module "oauthenticator.comanage") ∅ ∅))
    = environ_assignments.
Proof.
  destruct (failed_load_sets_environ_only
              (without_module "oauthenticator.comanage") ∅ ∅
              (ModuleNotFoundError "oauthenticator.comanage"))
    as (Hc & Hlog & _); [vm_compute; reflexivity|].
  by split.
Defined.



(** X4: loading the file again, into the environment and the configuration
    object that a first load left, has the same outcome and changes
    neither of them. *)
Theorem reload_is_noop (sys_modules : gmap string (gmap string value))
    (env0 : gmap string string) (c0 : Config) :
  let st := snd (load sys_modules env0 c0) in
  fst (load sys_modules (environ st) (c st)) = fst (load sys_modules env0 c0)
  ∧ environ (snd (load sys_modules (environ st) (c st))) = environ st
  ∧ c (snd (load sys_modules (environ st) (c st))) = c st
  ∧ assigned (snd (load sys_modules (environ st) (c st))) = assigned st.
Proof.
  intros st.
  pose proof (load_log_initial sys_modules (environ st) env0 (c st) c0) as Hlog.
  fold st in Hlog.
  destruct (load_replayed (environ st) (c st) sys_modules) as [Henv Hc].
  rewrite Hlog in Henv, Hc.
  destruct (replay_held st (assigned st)) as [Henv' Hc'].
  { intros a Ha. by apply load_read_back. }
  split_and!; [by rewrite !load_outcome | congruence | congruence | done].
Qed.

(** X5: a load with both imports through creates the six sections the file
    writes to when they are not there yet, and neither adds nor removes any
    other section. *)
Theorem load_creates_sections (sys_modules : gmap string (gmap string value))
    (env0 : gmap string string) (c0 : Config) :
  importable sys_modules = true →
  dom (c (snd (load sys_modules env0 c0))) = sections ∪ dom c0.
Proof.
  intros Himp. rewrite load_c_closed, Himp.
  unfold replay_c, c_assignments. cbn [foldl lhs rhs].
  rewrite !dom_setattr. unfold sections.
  apply set_eq. intros section.
  rewrite !elem_of_union, !elem_of_singleton. tauto.
Qed.

Lemma load_creates_sections_witness :
  importable installed = true
  ∧ dom (c (snd (load installed ∅ ∅))) = sections.
Proof.
  assert (Himp : importable installed = true) by (vm_compute; reflexivity).
  split; [exact Himp|].
  rewrite (load_creates_sections installed ∅ ∅ Himp), dom_empty_L.
  apply (right_id_L ∅ (∪)).
Defined.

(** X6: the name [COManageOAuthenticator] that the first import binds is
    never used as a value: whatever object the module binds to it, the load
    returns with the same environment, configuration object and log. *)
Theorem comanage_authenticator_import_unused
    (sys_modules : gmap string (gmap string value))
    (env0 : gmap string string) (c0 : Config)
    (ns : gmap string value) (v : value) :
  importable sys_modules = true →
  sys_modules !! "oauthenticator.comanage" = Some ns →
  let rebound :=
    <["oauthenticator.comanage" := <["COManageOAuthenticator" := v]> ns]>
      sys_modules in
  fst (load rebound env0 c0) = Returned ()
  ∧ environ (snd (load rebound env0 c0)) = environ (snd (load sys_modules env0 c0))
  ∧ c (snd (load rebound env0 c0)) = c (snd (load sys_modules env0 c0))
  ∧ assigned (snd (load rebound env0 c0))
    = assigned (snd (load sys_modules env0 c0)).
Proof.
  intros Himp Hns rebound.
  assert (Hauth : imported_authenticator rebound = imported_authenticator sys_modules).
  { unfold imported_authenticator, rebound. rewrite lookup_insert_eq, Hns. cbn.
    by rewrite lookup_insert_ne. }
  assert (Himp' : importable rebound = true).
  { revert Himp. unfold importable, exports, rebound.
    rewrite lookup_insert_eq, lookup_insert_ne, Hns by done. cbn.
    rewrite lookup_insert_eq, lookup_insert_ne by done.
    intros [[_ Hlocal]%andb_true_iff Hspawner]%andb_true_iff.
    rewrite Hlocal, Hspawner. by rewrite bool_decide_eq_true_2 by done. }
  destruct (load_importable rebound env0 c0 Himp') as (cls' & Hcls' & Hret & Hlog').
  destruct (load_importable sys_modules env0 c0 Himp) as (cls & Hcls & _ & Hlog).
  split_and!.
  - done.
  - by rewrite !load_environ_closed.
  - by rewrite !load_c_closed, Himp, Himp', Hauth.
  - congruence.
Qed.

Lemma comanage_authenticator_import_unused_witness :
  let rebound :=
    <["oauthenticator.comanage" :=
        <["COManageOAuthenticator" := VInt 0]> installed_oauthenticator]>
      installed in
  fst (load rebound ∅ ∅) = Returned ()
  ∧ environ (snd (load rebound ∅ ∅)) = environ (snd (load installed ∅ ∅))
  ∧ c (snd (load rebound ∅ ∅)) = c (snd (load installed ∅ ∅))
  ∧ assigned (snd (load rebound ∅ ∅)) = assigned (snd (load installed ∅ ∅)).
Proof.
  apply (comanage_authenticator_import_unused installed ∅ ∅
           installed_oauthenticator (VInt 0));
    vm_compute; reflexivity.
Defined.

(** X7: after a load with both imports through, the callback URL is an
    https URL, and the cookie secret, the TLS certificate and the TLS key
    are three absolute paths under /usr/local/anaconda3/etc/jupyterhub/,
    certificate and key being set together. *)
Theorem paths_loaded (sys_modules : gmap string (gmap string value))
    (env0 : gmap string string) (c0 : Config) :
  importable sys_modules = true →
  let st := snd (load sys_modules env0 c0) in
  ∃ url secret cert key,
    getattr (c st) "COManageOAuthenticator" "oauth_callback_url" = Some (VStr url)
    ∧ getattr (c st) "JupyterHub" "cookie_secret_file" = Some (VStr secret)
    ∧ getattr (c st) "JupyterHub" "ssl_cert" = Some (VStr cert)
    ∧ getattr (c st) "JupyterHub" "ssl_key" = Some (VStr key)
    ∧ url = "https://jupyter05.sdcc.bnl.gov:8000/hub/oauth_callback"
    ∧ secret = "/usr/local/anaconda3/etc/jupyterhub/jupyterhub_cookie_secret"
    ∧ cert = "/usr/local/anaconda3/etc/jupyterhub/ssl/certificate.crt"
    ∧ key = "/usr/local/anaconda3/etc/jupyterhub/ssl/key.pem"
    ∧ String.prefix "https://" url = true
    ∧ forallb (λ path, file_path_string (VStr path)
                       && String.prefix "/usr/local/anaconda3/etc/jupyterhub/" path)
        [secret; cert; key] = true.
Proof.
  intros Himp st. subst st.
  destruct (load_importable sys_modules env0 c0 Himp) as (cls & _ & _ & Hlog).
  do 4 eexists.
  split; [apply (load_getattr _ _ _ cls); [done | unfold c_assignments; in_log]|].
  split; [apply (load_getattr _ _ _ cls); [done | unfold c_assignments; in_log]|].
  split; [apply (load_getattr _ _ _ cls); [done | unfold c_assignments; in_log]|].
  split; [apply (load_getattr _ _ _ cls); [done | unfold c_assignments; in_log]|].
  split_and!; vm_compute; reflexivity.
Qed.

Lemma paths_loaded_witness :
  importable installed = true
  ∧ getattr (c (snd (load installed ∅ ∅))) "JupyterHub" "ssl_cert"
    = Some (VStr "/usr/local/anaconda3/etc/jupyterhub/ssl/certificate.crt")
  ∧ getattr (c (snd (load installed ∅ ∅))) "JupyterHub" "ssl_key"
    = Some (VStr "/usr/local/anaconda3/etc/jupyterhub/ssl/key.pem").
Proof.
  assert (Himp : importable installed = true) by (vm_compute; reflexivity).
  destruct (paths_loaded installed ∅ ∅ Himp)
    as (url & secret & cert & key & _ & _ & Hcert & Hkey & _ & _ & -> & -> & _).
  split; [exact Himp|]. split; [exact Hcert | exact Hkey].
Defined.

(** X8: the two stores do not influence each other: the environment after
    a load is the same whatever the module table and the configuration
    object were, and the configuration object after a load is the same
    whatever the environment was. *)
Theorem environ_and_settings_independent
    (sys_modules sys_modules' : gmap string (gmap string value))
    (env0 env1 : gmap string string) (c0 c1 : Config) :
  environ (snd (load sys_modules env0 c0))
  = environ (snd (load sys_modules' env0 c1))
  ∧ c (snd (load sys_modules env0 c0)) = c (snd (load sys_modules env1 c0)).
Proof. split; [by rewrite !load_environ_closed | by rewrite !load_c_closed]. Qed.
